(** * backend/app.py: the malaria analyzer service

    A shallow embedding of [backend/app.py] and the properties of its upload
    validator, its two random stubs, its diagnosis aggregation and its
    analyze endpoint.

    Conventions of the embedding:
    - a Python [str] is a [string]; the only case mapping the program uses is
      [str.lower], modelled on the letters [A]-[Z] (no other code point
      lowercases to one of [p], [d], [f], so membership in the accepted
      extensions is not affected);
    - a Python [int] is a [Z], a Python [float] is a binary64 [float];
    - a raised exception is the [Raise] case of [Result];
    - the module-level generator of [random] is a state threaded through
      every call that draws from it. *)

From Stdlib Require Import ZArith Floats.PrimFloat Numbers.Cyclic.Int63.Uint63.
From Stdlib Require Import Strings.Ascii Strings.String Strings.Byte.
From stdpp Require Import base option list gmap strings.

#[local] Set Warnings "-inexact-float,-register-all".
#[local] Open Scope string_scope.
#[local] Open Scope Z_scope.

(** ** Exceptions *)

Inductive PyExc : Type :=
  | IndexError (msg : string)
  | ValueError (msg : string)
  | ZeroDivisionError (msg : string)
  | OSError (msg : string).

(** [str(e)] *)
Definition exc_str (e : PyExc) : string :=
  match e with
  | IndexError msg => msg
  | ValueError msg => msg
  | ZeroDivisionError msg => msg
  | OSError msg => msg
  end.

Inductive Result (A : Type) : Type :=
  | Ok (a : A)
  | Raise (e : PyExc).
Arguments Ok {A} a.
Arguments Raise {A} e.

#[global] Instance Result_ret : MRet Result := fun A a => Ok a.
#[global] Instance Result_bind : MBind Result := fun A B f m =>
  match m with
  | Ok a => f a
  | Raise e => Raise e
  end.

(** ** Strings *)

Module Str.

(** [c in s] for a one-character [c] *)
Fixpoint contains (c : ascii) (s : string) : bool :=
  match s with
  | EmptyString => false
  | String a s' => if Ascii.eqb a c then true else contains c s'
  end.

(** The cut at the last occurrence of [c]: what is before it and what is
    after it; [None] when [c] does not occur. *)
Fixpoint cut_last (c : ascii) (s : string) : option (string * string) :=
  match s with
  | EmptyString => None
  | String a s' =>
      match cut_last c s' with
      | Some (pre, suf) => Some (String a pre, suf)
      | None => if Ascii.eqb a c then Some (EmptyString, s') else None
      end
  end.

(** [s.rsplit(c, 1)]: at most one split, taken from the right. *)
Definition rsplit1 (c : ascii) (s : string) : list string :=
  match cut_last c s with
  | Some (pre, suf) => [pre; suf]
  | None => [s]
  end.

Definition lower_ascii (a : ascii) : ascii :=
  let n := N_of_ascii a in
  if ((65 <=? n) && (n <=? 90))%N then ascii_of_N (n + 32) else a.

(** [s.lower()] *)
Fixpoint lower (s : string) : string :=
  match s with
  | EmptyString => EmptyString
  | String a s' => String (lower_ascii a) (lower s')
  end.

(** [bool(s)] *)
Definition truthy (s : string) : bool :=
  match s with
  | EmptyString => false
  | String _ _ => true
  end.

End Str.

(** [l[i]] for a non-negative literal index [i] *)
Definition py_index {A} (l : list A) (i : nat) : Result A :=
  match l !! i with
  | Some x => Ok x
  | None => Raise (IndexError "list index out of range")
  end.

(** ** Configuration *)

(** [app.config['ALLOWED_EXTENSIONS']] *)
Definition ALLOWED_EXTENSIONS : gset string := {[ "pdf" ]}.

(** ** Upload validator *)

(** [allowed_file]: [and] evaluates its right operand only when the left one
    is true. *)
Definition allowed_file (filename : string) : Result bool :=
  if Str.contains "." filename then
    ext ← py_index (Str.rsplit1 "." filename) 1;
    mret (bool_decide (Str.lower ext ∈ ALLOWED_EXTENSIONS))
  else mret false.

(** ** Python values and dictionaries *)

(** The values the program stores in the dictionaries it returns.
    [list(set(...))] lists a set in an order the interpreter chooses; it is
    kept as the set it lists. *)
Inductive PyVal : Type :=
  | VBool (b : bool)
  | VInt (n : Z)
  | VFloat (x : float)
  | VStr (s : string)
  | VStrSet (s : gset string)
  | VDict (d : gmap string PyVal).

Abbreviation PyDict := (gmap string PyVal).

(** A dictionary display [{k1: v1, ..., kn: vn}]: the items are stored from
    left to right. *)
Definition py_dict (items : list (string * PyVal)) : PyDict :=
  fold_left (fun d kv => <[kv.1 := kv.2]> d) items ∅.

(** [len(l)] *)
Definition len {A} (l : list A) : Z := Z.of_nat (length l).

(** [range(n)] *)
Definition py_range (n : Z) : list Z := Z.of_nat <$> seq 0 (Z.to_nat n).

(** [sum(l)] over integers *)
Definition sum_int (l : list Z) : Z := fold_left Z.add l 0.

(** The conversion of an [int] to a [float] that [/] applies to its integer
    operand; exact below [2^53] and rounded to nearest up to [2^63], as in
    Python (no list is longer). *)
Definition float_of_int (n : Z) : float :=
  if n <? 0 then PrimFloat.opp (PrimFloat.of_uint63 (Uint63.of_Z (- n)))
  else PrimFloat.of_uint63 (Uint63.of_Z n).

(** [x / n] for a float [x] and an integer [n] *)
Definition py_truediv (x : float) (n : Z) : Result float :=
  if n =? 0 then Raise (ZeroDivisionError "float division by zero")
  else Ok (PrimFloat.div x (float_of_int n)).

(** ** What the program takes from its runtime

    [sum] over floats is the interpreter's (a plain left-to-right sum up to
    CPython 3.11, a compensated one from 3.12 on); [secure_filename] is
    werkzeug's; [os.path.join] is the platform's; the upload folder is
    computed from where the module is installed. The operating system
    refuses to write some paths (a name too long for the file system, a
    directory, a place the process may not write to): [write_refused] gives
    the exception raised for such a path. *)
Class Runtime : Type := {
  float_sum : list float -> float;
  secure_filename : string -> string;
  path_join : string -> string -> string;
  UPLOAD_FOLDER : string;
  write_refused : string -> option PyExc;
}.

(** ** The generator of [random]

    The generator is the sequence of its raw outputs and a position in it.
    Every call of the module's interface reads one raw word and maps it into
    the range of the call, so every sequence of outcomes is the image of some
    generator, and nothing below depends on the distribution. *)
Record Rng : Type := { source : nat -> N; cursor : nat }.

Definition M (A : Type) : Type := Rng -> Result A * Rng.

#[global] Instance M_ret : MRet M := fun A a g => (Ok a, g).
#[global] Instance M_bind : MBind M := fun A B f m g =>
  match m g with
  | (Ok a, g') => f a g'
  | (Raise e, g') => (Raise e, g')
  end.

(** A computation that does not draw. *)
Definition lift {A} (r : Result A) : M A := fun g => (r, g).

(** The generator after one raw output was read *)
Definition advance (g : Rng) : Rng :=
  {| source := source g; cursor := S (cursor g) |}.

Definition next_word : M N := fun g => (Ok (source g (cursor g)), advance g).

Module random.

(** [Random._randbelow(n)]: an integer in [[0, n)] *)
Definition randbelow (n : Z) : M Z :=
  w ← next_word; mret (Z.of_N w mod n).

(** [random.randint(a, b)]: an integer [N] with [a <= N <= b] *)
Definition randint (a b : Z) : M Z :=
  if 0 <? b - a + 1 then r ← randbelow (b - a + 1); mret (a + r)
  else lift (Raise (ValueError "empty range for randrange()")).

(** [random.choice(seq)] *)
Definition choice {A} (seq : list A) : M A :=
  if len seq =? 0 then lift (Raise (IndexError "Cannot choose from an empty sequence"))
  else i ← randbelow (len seq); lift (py_index seq (Z.to_nat i)).

(** [random.random()]: a multiple of [2^-53] in [[0.0, 1.0)] *)
Definition random : M float :=
  w ← next_word;
  mret (PrimFloat.div (float_of_int (Z.of_N w mod 2 ^ 53)) 9007199254740992%float).

(** [random.uniform(a, b)] is [a + (b - a) * random()] *)
Definition uniform (a b : float) : M float :=
  u ← random; mret (PrimFloat.add a (PrimFloat.mul (PrimFloat.sub b a) u)).

End random.

(** ** Records of the pipeline *)

(** An extracted image: [{"page": _, "index": _, "bytes": _}] *)
Record Image : Type := { page : Z; index : Z; bytes : list byte }.

(** The four labels of the classifier stub *)
Inductive Species : Type := Falciparum | Vivax | Ovale | Malariae.

Definition species_name (s : Species) : string :=
  match s with
  | Falciparum => "P. falciparum"
  | Vivax => "P. vivax"
  | Ovale => "P. ovale"
  | Malariae => "P. malariae"
  end.

(** One image's result:
    [{"parasite_detected": _, "parasite_type": _, "confidence": _}];
    [parasite_type] is [None] or one of the four labels. *)
Record DetectionResult : Type := {
  parasite_detected : bool;
  parasite_type : option Species;
  confidence : float;
}.

(** [b"placeholder"] *)
Definition placeholder : list byte := list_byte_of_string "placeholder".

(** ** Image extraction stub *)

Definition extract_images_from_pdf (pdf_path : string) : M (list Image) :=
  n ← random.randint 1 5;
  mret ((fun i => {| page := 0; index := i; bytes := placeholder |}) <$> py_range n).

(** ** Per-image classifier stub

    The items of the dictionary display are evaluated in order, and a
    conditional expression evaluates its condition before the branch it
    selects: the draws are [choice], [random], [choice] when the condition
    holds, [uniform]. *)
Definition analyze_image_for_malaria (image_data : list byte) : M DetectionResult :=
  detected ← random.choice [true; false];
  u ← random.random;
  type ← (if PrimFloat.ltb 0.3 u
          then s ← random.choice [Falciparum; Vivax; Ovale; Malariae]; mret (Some s)
          else mret None);
  conf ← random.uniform 0.7 0.99;
  mret {| parasite_detected := detected; parasite_type := type; confidence := conf |}.

(** ** Diagnosis and endpoint *)

Section Service.
Context {runtime : Runtime}.

(** [sum(1 for r in image_results if r["parasite_detected"])] *)
Definition positive_count (image_results : list DetectionResult) : Z :=
  sum_int ((fun _ => 1) <$> List.filter parasite_detected image_results).

(** [bool(r["parasite_type"])]: [None] and the empty string are false. *)
Definition type_truthy (r : DetectionResult) : bool :=
  match parasite_type r with
  | Some s => Str.truthy (species_name s)
  | None => false
  end.

(** [[r["parasite_type"] for r in image_results
      if r["parasite_detected"] and r["parasite_type"]]];
    the entries it keeps have a label, whose name is listed. *)
Definition parasites (image_results : list DetectionResult) : list string :=
  omap (fun r => species_name <$> parasite_type r)
       (List.filter (fun r => parasite_detected r && type_truthy r) image_results).

(** [[r["confidence"] for r in image_results if r["parasite_detected"]]] *)
Definition confidences (image_results : list DetectionResult) : list float :=
  confidence <$> List.filter parasite_detected image_results.

(** [sum(confidences) / len(confidences) if confidences else 0] *)
Definition avg_confidence (confidences : list float) : Result PyVal :=
  match confidences with
  | _ :: _ => q ← py_truediv (float_sum confidences) (len confidences); mret (VFloat q)
  | [] => mret (VInt 0)
  end.

(** Lines 97-124 of [analyze_malaria_pdf]: the diagnosis computed from the
    per-image results. *)
Definition aggregate (image_results : list DetectionResult) : Result PyDict :=
  let positive_count := positive_count image_results in
  let total_count := len image_results in
  if 0 <? positive_count then
    let parasites := parasites image_results in
    let unique_parasites := (list_to_set parasites : gset string) in
    let confidences := confidences image_results in
    avg_confidence ← avg_confidence confidences;
    mret (py_dict [("diagnosis", VStr "Positive");
                   ("parasites_detected", VStrSet unique_parasites);
                   ("confidence", avg_confidence);
                   ("parasite_count", VInt positive_count);
                   ("images_analyzed", VInt total_count)])
  else
    mret (py_dict [("diagnosis", VStr "Negative");
                   ("confidence", VFloat 0.85);
                   ("parasite_count", VInt 0);
                   ("images_analyzed", VInt total_count)]).

(** The loop of lines 91-94: one result per image, appended in order. *)
Fixpoint analyze_images (images : list Image) (image_results : list DetectionResult)
  : M (list DetectionResult) :=
  match images with
  | [] => mret image_results
  | image :: images' =>
      result ← analyze_image_for_malaria (bytes image);
      analyze_images images' (image_results ++ [result])
  end.

(** Lines 84-124 of [analyze_malaria_pdf]: what it does with the images it
    extracted. *)
Definition diagnose (images : list Image) : M PyDict :=
  match images with
  | [] => mret (py_dict [("diagnosis", VStr "Inconclusive");
                         ("error", VStr "No images found in PDF")])
  | _ :: _ =>
      image_results ← analyze_images images [];
      lift (aggregate image_results)
  end.

(** [analyze_malaria_pdf]; its handler only reports the exception on the
    error stream and raises it again. *)
Definition analyze_malaria_pdf (pdf_path : string) : M PyDict :=
  images ← extract_images_from_pdf pdf_path;
  diagnose images.

(** ** The analyze endpoint *)

(** An uploaded file of the multipart form: its name and its content *)
Record FileStorage : Type := { filename : string; stream : list byte }.

(** [request.files] *)
Record Request : Type := { files : gmap string FileStorage }.

(** [jsonify(body), status] *)
Record Response : Type := { body : PyDict; status : Z }.

(** What a request can read and change: the files on disk (by path) and the
    generator. *)
Record World : Type := { disk : gmap string (list byte); rng : Rng }.

(** [file.save(filepath)]: the content is written under the path, over what
    was there; when the operating system refuses the path the call raises
    and nothing is written. *)
Definition save (file : FileStorage) (filepath : string) (w : World)
  : Result unit * World :=
  match write_refused filepath with
  | Some e => (Raise e, w)
  | None => (Ok tt, {| disk := <[filepath := stream file]> (disk w); rng := rng w |})
  end.

(** [analyze_pdf]. A [FileStorage] is true when its name is non-empty. The
    file is saved before the [try]: an exception of [file.save] leaves the
    function, as one of the validator would, and is left to the framework. *)
Definition analyze_pdf (request : Request) (w : World) : Result Response * World :=
  match files request !! "file" with
  | None => (Ok {| body := py_dict [("error", VStr "No file part")]; status := 400 |}, w)
  | Some file =>
      if String.eqb (filename file) "" then
        (Ok {| body := py_dict [("error", VStr "No file selected")]; status := 400 |}, w)
      else
        match (if Str.truthy (filename file) then allowed_file (filename file) else Ok false) with
        | Raise e => (Raise e, w)
        | Ok true =>
            let filename := secure_filename (filename file) in
            let filepath := path_join UPLOAD_FOLDER filename in
            match save file filepath w with
            | (Raise e, w) => (Raise e, w)
            | (Ok _, w) =>
                match analyze_malaria_pdf filepath (rng w) with
                | (Ok results, g) =>
                    (Ok {| body := py_dict [("success", VBool true);
                                            ("results", VDict results)];
                           status := 200 |},
                     {| disk := disk w; rng := g |})
                | (Raise e, g) =>
                    (Ok {| body := py_dict [("error",
                              VStr ("Analysis failed: " +:+ exc_str e))];
                           status := 500 |},
                     {| disk := disk w; rng := g |})
                end
            end
        | Ok false =>
            (Ok {| body := py_dict [("error",
                      VStr "File type not allowed. Please upload a PDF file.")];
                   status := 400 |}, w)
        end
  end.

End Service.

(** ** The properties, in the words of the specification *)

(** The filename has a dot, and what follows its last dot, lowercased, is an
    accepted extension. *)
Definition has_accepted_extension (filename : string) : Prop :=
  exists pre suf : string,
    filename = pre +:+ "." +:+ suf /\
    Str.contains "." suf = false /\
    Str.lower suf ∈ ALLOWED_EXTENSIONS.

(** The number of entries with [detected = true] *)
Fixpoint count_detected (rs : list DetectionResult) : nat :=
  match rs with
  | [] => 0
  | r :: rs' => ((if parasite_detected r then 1 else 0) + count_detected rs')%nat
  end.

(** The entries with [detected = true], in order *)
Fixpoint detected_entries (rs : list DetectionResult) : list DetectionResult :=
  match rs with
  | [] => []
  | r :: rs' => if parasite_detected r then r :: detected_entries rs' else detected_entries rs'
  end.

(** The name of the label an entry carries, if it carries one *)
Definition label (r : DetectionResult) : option string :=
  species_name <$> parasite_type r.

(** The labels of the detected entries that carry one, without repeats *)
Definition detected_labels (rs : list DetectionResult) : gset string :=
  list_to_set (omap label (detected_entries rs)).

(** The mean of the confidences of the [k] detected entries: their sum
    divided by [k] *)
Definition mean_detected_confidence `{Runtime} (rs : list DetectionResult) : float :=
  PrimFloat.div (float_sum (confidence <$> detected_entries rs))
                (float_of_int (Z.of_nat (count_detected rs))).

(** ** A runtime and generators to run the model on *)

(** The sum of CPython up to 3.11: from [0], left to right *)
Definition left_to_right_sum (xs : list float) : float :=
  fold_left PrimFloat.add xs 0%float.

(** A runtime for the examples: the names of the examples are safe already,
    and [secure_filename] leaves such names as they are; a path of more than
    255 characters is refused. *)
Definition example_runtime : Runtime := {|
  float_sum := left_to_right_sum;
  secure_filename := fun name => name;
  path_join := fun dir name => dir +:+ "/" +:+ name;
  UPLOAD_FOLDER := "/srv/backend/uploads";
  write_refused := fun path =>
    if (255 <? String.length path)%nat
    then Some (OSError "[Errno 36] File name too long")
    else None;
|}.

(** A name of 300 letters and the extension [pdf] *)
Definition long_name : string :=
  String.concat "" (replicate 300 "a") +:+ ".pdf".

(** The generator whose next raw outputs are [words], followed by zeros *)
Definition rng_of (words : list N) : Rng :=
  {| source := fun i => nth i words 0%N; cursor := 0 |}.

(** A request that uploads [content] under the name [name] *)
Definition upload (name : string) (content : list byte) : Request :=
  {| files := {[ "file" := {| filename := name; stream := content |} ]} |}.

Definition empty_world (g : Rng) : World := {| disk := ∅; rng := g |}.

(** Four results: three detected (two labelled alike, one without a label)
    and one labelled but not detected *)
Definition sample_results : list DetectionResult :=
  [ {| parasite_detected := true; parasite_type := Some Vivax; confidence := 0.9 |};
    {| parasite_detected := false; parasite_type := Some Ovale; confidence := 0.8 |};
    {| parasite_detected := true; parasite_type := None; confidence := 0.7 |};
    {| parasite_detected := true; parasite_type := Some Vivax; confidence := 0.8 |} ].

(** Two results, none detected, one of them labelled *)
Definition clean_results : list DetectionResult :=
  [ {| parasite_detected := false; parasite_type := Some Malariae; confidence := 0.95 |};
    {| parasite_detected := false; parasite_type := None; confidence := 0.75 |} ].

(** ** The health endpoint *)

(** [health_check]: a fixed payload; nothing is read or changed. *)
Definition health_check (w : World) : Result Response * World :=
  (Ok {| body := py_dict [("status", VStr "ok");
                          ("message", VStr "Malaria analyzer API is running")];
         status := 200 |}, w).

(** ** Readers of a returned dictionary *)

(** The string under the key [diagnosis] *)
Definition verdict (d : PyDict) : option string :=
  match d !! "diagnosis" with
  | Some (VStr s) => Some s
  | _ => None
  end.

(** The integer under a key *)
Definition int_field (key : string) (d : PyDict) : option Z :=
  match d !! key with
  | Some (VInt n) => Some n
  | _ => None
  end.

(** The set of strings under the key [parasites_detected] *)
Definition species_field (d : PyDict) : option (gset string) :=
  match d !! "parasites_detected" with
  | Some (VStrSet s) => Some s
  | _ => None
  end.

(** The names of the four labels *)
Definition species_names : gset string :=
  list_to_set (species_name <$> [Falciparum; Vivax; Ovale; Malariae]).

(** A three-letter extension that reads [pdf] in some mix of cases *)
Definition pdf_spelling (ext : string) : Prop :=
  exists a b c : ascii,
    ext = String a (String b (String c EmptyString)) /\
    (a = "p"%char \/ a = "P"%char) /\
    (b = "d"%char \/ b = "D"%char) /\
    (c = "f"%char \/ c = "F"%char).

(** Two results: a detected entry without a label and a labelled entry that
    is not detected *)
Definition unlabelled_results : list DetectionResult :=
  [ {| parasite_detected := true; parasite_type := None; confidence := 0.9 |};
    {| parasite_detected := false; parasite_type := Some Falciparum; confidence := 0.8 |} ].

(** * Properties *)

(** ** Strings *)

Lemma contains_false_cut_last c s :
  Str.contains c s = false -> Str.cut_last c s = None.
Proof.
  induction s as [|a s IH]; simpl; [done|].
  destruct (Ascii.eqb a c) eqn:E; [done|].
  intros Hs. by rewrite (IH Hs).
Qed.

Lemma contains_true_cut_last c s :
  Str.contains c s = true -> exists pre suf, Str.cut_last c s = Some (pre, suf).
Proof.
  induction s as [|a s IH]; simpl; [done|].
  destruct (Str.cut_last c s) as [[pre suf]|] eqn:Hcut; [by eauto|].
  destruct (Ascii.eqb a c) eqn:E; [by eauto|].
  intros Hs. destruct (IH Hs) as (? & ? & ?). done.
Qed.

Lemma cut_last_Some c s pre suf :
  Str.cut_last c s = Some (pre, suf) <->
  s = pre +:+ String c suf /\ Str.contains c suf = false.
Proof.
  split.
  - revert pre suf. induction s as [|a s IH]; intros pre suf; simpl; [done|].
    destruct (Str.cut_last c s) as [[pre' suf']|] eqn:Hcut.
    + intros [= <- <-]. destruct (IH _ _ eq_refl) as [-> Hsuf]. done.
    + destruct (Ascii.eqb_spec a c) as [->|]; [|done].
      intros [= <- <-]. split; [done|].
      destruct (Str.contains c s) eqn:Hs; [|done].
      destruct (contains_true_cut_last _ _ Hs) as (? & ? & ?). congruence.
  - intros [-> Hsuf]. induction pre as [|a pre IH]; simpl.
    + rewrite (contains_false_cut_last _ _ Hsuf). by rewrite Ascii.eqb_refl.
    + by rewrite IH.
Qed.

Lemma contains_app c s1 s2 :
  Str.contains c (s1 +:+ s2) = Str.contains c s1 || Str.contains c s2.
Proof.
  induction s1 as [|a s1 IH]; simpl; [done|].
  by destruct (Ascii.eqb a c).
Qed.

Lemma lower_ascii_dot a : Ascii.eqb (Str.lower_ascii a) "." = Ascii.eqb a ".".
Proof.
  destruct a as [[] [] [] [] [] [] [] []]; reflexivity.
Qed.

Lemma contains_dot_lower s : Str.contains "." (Str.lower s) = Str.contains "." s.
Proof.
  induction s as [|a s IH]; simpl; [done|].
  by rewrite lower_ascii_dot, IH.
Qed.

Lemma lower_ascii_idemp a : Str.lower_ascii (Str.lower_ascii a) = Str.lower_ascii a.
Proof.
  destruct a as [[] [] [] [] [] [] [] []]; reflexivity.
Qed.

Lemma lower_idemp s : Str.lower (Str.lower s) = Str.lower s.
Proof.
  induction s as [|a s IH]; simpl; [done|].
  by rewrite lower_ascii_idemp, IH.
Qed.

Lemma lower_app s1 s2 : Str.lower (s1 +:+ s2) = Str.lower s1 +:+ Str.lower s2.
Proof.
  induction s1 as [|a s1 IH]; simpl; [done|]. by rewrite IH.
Qed.

Lemma cut_last_lower s :
  Str.cut_last "." (Str.lower s) =
  (fun ps => (Str.lower ps.1, Str.lower ps.2)) <$> Str.cut_last "." s.
Proof.
  induction s as [|a s IH]; simpl; [done|].
  rewrite IH, lower_ascii_dot.
  destruct (Str.cut_last "." s) as [[pre suf]|]; simpl; [done|].
  by destruct (Ascii.eqb a ".").
Qed.

Lemma elem_of_ALLOWED_EXTENSIONS ext : ext ∈ ALLOWED_EXTENSIONS <-> ext = "pdf".
Proof. unfold ALLOWED_EXTENSIONS. set_solver. Qed.

(** ** Upload validator *)

Lemma allowed_file_no_dot filename :
  Str.contains "." filename = false -> allowed_file filename = Ok false.
Proof. intros Hdot. unfold allowed_file. by rewrite Hdot. Qed.

Lemma allowed_file_cut filename pre suf :
  Str.cut_last "." filename = Some (pre, suf) ->
  allowed_file filename = Ok (bool_decide (Str.lower suf ∈ ALLOWED_EXTENSIONS)).
Proof.
  intros Hcut. unfold allowed_file, Str.rsplit1. rewrite Hcut.
  apply cut_last_Some in Hcut as [-> _].
  rewrite contains_app. simpl. by rewrite orb_true_r.
Qed.

Lemma allowed_file_true filename :
  allowed_file filename = Ok true <-> has_accepted_extension filename.
Proof.
  split.
  - intros Hok. destruct (Str.contains "." filename) eqn:Hdot.
    + destruct (contains_true_cut_last _ _ Hdot) as (pre & suf & Hcut).
      rewrite (allowed_file_cut _ _ _ Hcut) in Hok.
      injection Hok as Hok. apply bool_decide_eq_true in Hok.
      apply cut_last_Some in Hcut as [-> Hsuf].
      by exists pre, suf.
    + by rewrite (allowed_file_no_dot _ Hdot) in Hok.
  - intros (pre & suf & -> & Hsuf & Hext).
    rewrite (allowed_file_cut _ pre suf); [|by apply cut_last_Some].
    by rewrite bool_decide_eq_true_2.
Qed.

Lemma allowed_file_lower filename :
  allowed_file (Str.lower filename) = allowed_file filename.
Proof.
  destruct (Str.contains "." filename) eqn:Hdot.
  - destruct (contains_true_cut_last _ _ Hdot) as (pre & suf & Hcut).
    rewrite (allowed_file_cut _ _ _ Hcut).
    rewrite (allowed_file_cut _ (Str.lower pre) (Str.lower suf)).
    + by rewrite lower_idemp.
    + by rewrite cut_last_lower, Hcut.
  - rewrite !allowed_file_no_dot; [done..|]. by rewrite contains_dot_lower.
Qed.

Lemma allowed_file_total filename : exists b, allowed_file filename = Ok b.
Proof.
  destruct (Str.contains "." filename) eqn:Hdot.
  - destruct (contains_true_cut_last _ _ Hdot) as (pre & suf & Hcut).
    rewrite (allowed_file_cut _ _ _ Hcut). eauto.
  - rewrite (allowed_file_no_dot _ Hdot). eauto.
Qed.

(** C8: the validator returns true exactly for the filenames that contain a
    dot and whose part after the last dot, lowercased, is in the accepted
    set, and false for all others; the accepted set holds [pdf] and nothing
    else; two names that differ only in the case of the extension get the
    same answer. *)
Theorem allowed_file_spec :
  (forall filename,
     (allowed_file filename = Ok true <-> has_accepted_extension filename) /\
     (allowed_file filename = Ok false <-> ~ has_accepted_extension filename)) /\
  (forall ext, ext ∈ ALLOWED_EXTENSIONS <-> ext = "pdf") /\
  (forall pre suf suf',
     Str.lower suf = Str.lower suf' ->
     allowed_file (pre +:+ "." +:+ suf) = allowed_file (pre +:+ "." +:+ suf')).
Proof.
  split; [|split].
  - intros filename. split; [apply allowed_file_true|].
    rewrite <- allowed_file_true.
    destruct (allowed_file_total filename) as [[] ->]; split; congruence.
  - apply elem_of_ALLOWED_EXTENSIONS.
  - intros pre suf suf' Hlower.
    rewrite <- (allowed_file_lower (pre +:+ "." +:+ suf)).
    rewrite <- (allowed_file_lower (pre +:+ "." +:+ suf')).
    by rewrite !lower_app, Hlower.
Qed.

(** C10: the validator returns a boolean for every filename; when the name
    has a dot the right-split has exactly two parts, so the index [1] is in
    range, and when it has none the split is not evaluated and the answer is
    false. *)
Theorem allowed_file_never_raises filename :
  (exists b, allowed_file filename = Ok b) /\
  (Str.contains "." filename = true ->
     exists pre suf, Str.rsplit1 "." filename = [pre; suf] /\
                     py_index (Str.rsplit1 "." filename) 1 = Ok suf) /\
  (Str.contains "." filename = false ->
     Str.rsplit1 "." filename = [filename] /\ allowed_file filename = Ok false).
Proof.
  split; [apply allowed_file_total|split].
  - intros Hdot. destruct (contains_true_cut_last _ _ Hdot) as (pre & suf & Hcut).
    exists pre, suf. unfold Str.rsplit1. by rewrite Hcut.
  - intros Hdot. split; [|by apply allowed_file_no_dot].
    unfold Str.rsplit1. by rewrite contains_false_cut_last.
Qed.

(** ** The generator and the stubs *)

Lemma M_bind_Ok {A B} (m : M A) (f : A -> M B) g a g' :
  m g = (Ok a, g') -> (m ≫= f) g = f a g'.
Proof. intros Hm. unfold mbind, M_bind. by rewrite Hm. Qed.

Lemma py_index_in_range {A} (l : list A) (i : Z) :
  0 <= i < len l -> exists x, py_index l (Z.to_nat i) = Ok x /\ x ∈ l.
Proof.
  unfold len, py_index. intros Hi.
  destruct (lookup_lt_is_Some_2 l (Z.to_nat i)) as [x Hx]; [lia|].
  rewrite Hx. exists x. split; [done|]. by eapply list_elem_of_lookup_2.
Qed.

Lemma randbelow_run n g :
  0 < n ->
  exists r, random.randbelow n g = (Ok r, advance g) /\ 0 <= r < n.
Proof.
  intros Hn. eexists. split; [reflexivity|]. by apply Z.mod_pos_bound.
Qed.

Lemma randint_run a b g :
  a <= b ->
  exists r, random.randint a b g = (Ok r, advance g) /\ a <= r <= b.
Proof.
  intros Hab. unfold random.randint.
  destruct (Z.ltb_spec 0 (b - a + 1)); [|lia].
  destruct (randbelow_run (b - a + 1) g) as (r & Hr & Hrange); [lia|].
  exists (a + r). rewrite (M_bind_Ok _ _ _ _ _ Hr). split; [done|lia].
Qed.

Lemma choice_run {A} (seq : list A) g :
  seq <> [] ->
  exists x, random.choice seq g = (Ok x, advance g) /\ x ∈ seq.
Proof.
  intros Hseq. unfold random.choice.
  assert (0 < len seq) by (destruct seq; [done|unfold len; simpl; lia]).
  destruct (Z.eqb_spec (len seq) 0); [lia|].
  destruct (randbelow_run (len seq) g) as (i & Hi & Hrange); [done|].
  destruct (py_index_in_range seq i Hrange) as (x & Hx & Hin).
  exists x. rewrite (M_bind_Ok _ _ _ _ _ Hi). unfold lift. by rewrite Hx.
Qed.

Lemma random_run g : exists u, random.random g = (Ok u, advance g).
Proof. eexists. reflexivity. Qed.

Lemma uniform_run a b g : exists x, random.uniform a b g = (Ok x, advance g).
Proof. eexists. reflexivity. Qed.

(** The classifier stub returns a result for every generator. *)
Lemma analyze_image_for_malaria_run image_data g :
  exists r g', analyze_image_for_malaria image_data g = (Ok r, g').
Proof.
  unfold analyze_image_for_malaria.
  destruct (choice_run [true; false] g) as (d & Hd & _); [done|].
  rewrite (M_bind_Ok _ _ _ _ _ Hd).
  destruct (random_run (advance g)) as (u & Hu).
  rewrite (M_bind_Ok _ _ _ _ _ Hu).
  destruct (PrimFloat.ltb 0.3 u).
  - destruct (choice_run [Falciparum; Vivax; Ovale; Malariae] (advance (advance g)))
      as (s & Hs & _); [done|].
    erewrite M_bind_Ok; [|by erewrite M_bind_Ok].
    destruct (uniform_run 0.7 0.99 (advance (advance (advance g)))) as (c & Hc).
    rewrite (M_bind_Ok _ _ _ _ _ Hc). by eauto.
  - erewrite M_bind_Ok; [|reflexivity].
    destruct (uniform_run 0.7 0.99 (advance (advance g))) as (c & Hc).
    rewrite (M_bind_Ok _ _ _ _ _ Hc). by eauto.
Qed.

Lemma analyze_images_run images acc g :
  exists rs g',
    analyze_images images acc g = (Ok (acc ++ rs)%list, g') /\ length rs = length images.
Proof.
  revert acc g. induction images as [|image images IH]; intros acc g; simpl.
  - exists [], g. by rewrite app_nil_r.
  - destruct (analyze_image_for_malaria_run (bytes image) g) as (r & g1 & Hr).
    rewrite (M_bind_Ok _ _ _ _ _ Hr).
    destruct (IH (acc ++ [r])%list g1) as (rs & g' & Hrs & Hlen).
    exists (r :: rs), g'. rewrite Hrs, <- app_assoc. simpl. by rewrite Hlen.
Qed.

Lemma py_range_length n : 0 <= n -> len (py_range n) = n.
Proof. intros Hn. unfold len, py_range. rewrite length_fmap, length_seq. lia. Qed.

Lemma py_range_lookup n i : (i < Z.to_nat n)%nat -> py_range n !! i = Some (Z.of_nat i).
Proof.
  intros Hi. unfold py_range. rewrite list_lookup_fmap, lookup_seq_lt; done.
Qed.

(** The extraction stub, for every generator: between one and five records,
    the [i]-th with index [i], page [0] and the placeholder payload. *)
Lemma extract_images_from_pdf_run pdf_path g :
  exists images,
    extract_images_from_pdf pdf_path g = (Ok images, advance g) /\
    1 <= len images <= 5 /\
    (forall i, (i < length images)%nat ->
       images !! i = Some {| page := 0; index := Z.of_nat i; bytes := placeholder |}).
Proof.
  unfold extract_images_from_pdf.
  destruct (randint_run 1 5 g) as (n & Hn & Hrange); [lia|].
  rewrite (M_bind_Ok _ _ _ _ _ Hn). eexists. split; [reflexivity|].
  unfold len. rewrite length_fmap. fold (len (py_range n)).
  rewrite py_range_length by lia. split; [lia|].
  intros i Hi. rewrite list_lookup_fmap, py_range_lookup; [done|].
  unfold py_range in Hi. rewrite length_fmap, length_seq in Hi. done.
Qed.

(** ** Diagnosis *)

Section DiagnosisProperties.
Context {runtime : Runtime}.

Lemma filter_detected rs : List.filter parasite_detected rs = detected_entries rs.
Proof.
  induction rs as [|r rs IH]; simpl; [done|].
  destruct (parasite_detected r); by rewrite IH.
Qed.

Lemma detected_entries_length rs : length (detected_entries rs) = count_detected rs.
Proof.
  induction rs as [|r rs IH]; simpl; [done|].
  destruct (parasite_detected r); simpl; by rewrite IH.
Qed.

Lemma elem_of_detected_entries r rs :
  r ∈ detected_entries rs <-> r ∈ rs /\ parasite_detected r = true.
Proof.
  induction rs as [|r' rs IH]; simpl.
  - split; [intros Hr|intros [Hr _]]; by apply elem_of_nil in Hr.
  - destruct (parasite_detected r') eqn:Hd.
    + rewrite !elem_of_cons, IH. split.
      * intros [->|[Hr Hrd]]; auto.
      * intros [[->|Hr] Hrd]; auto.
    + rewrite elem_of_cons, IH. split.
      * intros [Hr Hrd]; auto.
      * intros [[->|Hr] Hrd]; [congruence|auto].
Qed.

Lemma sum_int_ones {A} (l : list A) a :
  fold_left Z.add ((fun _ => 1) <$> l) a = a + len l.
Proof.
  revert a. unfold len. induction l as [|x l IH]; intros a; simpl; [lia|].
  rewrite IH. lia.
Qed.

Lemma positive_count_detected rs : positive_count rs = Z.of_nat (count_detected rs).
Proof.
  unfold positive_count, sum_int. rewrite sum_int_ones, filter_detected.
  unfold len. by rewrite detected_entries_length.
Qed.

Lemma species_name_truthy s : Str.truthy (species_name s) = true.
Proof. by destruct s. Qed.

Lemma type_truthy_label r : type_truthy r = true <-> is_Some (label r).
Proof.
  unfold type_truthy, label. destruct (parasite_type r) as [s|]; simpl.
  - rewrite species_name_truthy. split; [by eauto|done].
  - split; [done|]. by intros [? ?].
Qed.

Lemma parasites_labels rs : parasites rs = omap label (detected_entries rs).
Proof.
  unfold parasites. fold label.
  induction rs as [|r rs IH]; [done|].
  cbn [List.filter detected_entries].
  destruct (parasite_detected r); cbn [andb]; [|done].
  destruct (type_truthy r) eqn:Ht; cbn [omap list_omap].
  - apply type_truthy_label in Ht as [name Hname].
    by rewrite Hname, IH.
  - destruct (label r) as [name|] eqn:Hname; [|done].
    assert (type_truthy r = true) by (apply type_truthy_label; eauto). congruence.
Qed.

Lemma confidences_detected rs : confidences rs = confidence <$> detected_entries rs.
Proof. unfold confidences. by rewrite filter_detected. Qed.

Lemma confidences_length rs : len (confidences rs) = positive_count rs.
Proof.
  rewrite confidences_detected, positive_count_detected.
  unfold len. by rewrite length_fmap, detected_entries_length.
Qed.

Lemma elem_of_detected_labels name rs :
  name ∈ detected_labels rs <->
  exists r, r ∈ rs /\ parasite_detected r = true /\ label r = Some name.
Proof.
  unfold detected_labels. rewrite elem_of_list_to_set, list_elem_of_omap.
  split.
  - intros (r & Hr & Hname). exists r.
    apply elem_of_detected_entries in Hr as [Hr Hd]. auto.
  - intros (r & Hr & Hd & Hname). exists r.
    split; [|done]. by apply elem_of_detected_entries.
Qed.

(** With a detected entry the mean is taken: the list of confidences is not
    empty and its length, the divisor, is the positive count. *)
Lemma avg_confidence_detected rs :
  (0 < count_detected rs)%nat ->
  avg_confidence (confidences rs) = Ok (VFloat (mean_detected_confidence rs)).
Proof.
  intros Hk. unfold mean_detected_confidence.
  rewrite <- positive_count_detected, <- confidences_length, <- confidences_detected.
  pose proof (confidences_length rs) as Hlen.
  rewrite positive_count_detected in Hlen.
  destruct (confidences rs) as [|c cs] eqn:Hcs; [unfold len in Hlen; simpl in Hlen; lia|].
  unfold avg_confidence, py_truediv.
  destruct (Z.eqb_spec (len (c :: cs)) 0) as [Hz|_]; [lia|]. done.
Qed.

Lemma aggregate_detected rs :
  (0 < count_detected rs)%nat ->
  aggregate rs =
    Ok (py_dict [("diagnosis", VStr "Positive");
                 ("parasites_detected", VStrSet (detected_labels rs));
                 ("confidence", VFloat (mean_detected_confidence rs));
                 ("parasite_count", VInt (Z.of_nat (count_detected rs)));
                 ("images_analyzed", VInt (len rs))]).
Proof.
  intros Hk. unfold aggregate. rewrite positive_count_detected.
  destruct (Z.ltb_spec 0 (Z.of_nat (count_detected rs))) as [_|]; [|lia].
  rewrite (avg_confidence_detected rs Hk), parasites_labels. done.
Qed.

Lemma aggregate_none_detected rs :
  count_detected rs = 0%nat ->
  aggregate rs =
    Ok (py_dict [("diagnosis", VStr "Negative");
                 ("confidence", VFloat 0.85);
                 ("parasite_count", VInt 0);
                 ("images_analyzed", VInt (len rs))]).
Proof.
  intros Hk. unfold aggregate. rewrite positive_count_detected, Hk. done.
Qed.

Lemma aggregate_run rs :
  exists d, aggregate rs = Ok d /\ d !! "images_analyzed" = Some (VInt (len rs)).
Proof.
  destruct (count_detected rs) as [|k] eqn:Hk.
  - rewrite (aggregate_none_detected rs Hk). eauto.
  - rewrite (aggregate_detected rs) by lia. eauto.
Qed.

(** With images, the diagnosis is the aggregation of one result per image. *)
Lemma diagnose_images images g :
  images <> [] ->
  exists rs g',
    analyze_images images [] g = (Ok rs, g') /\
    length rs = length images /\
    diagnose images g = (aggregate rs, g').
Proof.
  intros Himages.
  destruct (analyze_images_run images [] g) as (rs & g' & Hrs & Hlen).
  exists rs, g'. split; [done|]. split; [done|].
  destruct images as [|image images]; [done|].
  unfold diagnose. by rewrite (M_bind_Ok _ _ _ _ _ Hrs).
Qed.

Lemma diagnose_run images g :
  exists d g',
    diagnose images g = (Ok d, g') /\
    d !! "images_analyzed" =
      match images with [] => None | _ :: _ => Some (VInt (len images)) end.
Proof.
  destruct images as [|image images].
  - eexists _, g. split; reflexivity.
  - destruct (diagnose_images (image :: images) g) as (rs & g' & _ & Hlen & ->); [done|].
    destruct (aggregate_run rs) as (d & -> & Hd).
    exists d, g'. split; [done|]. rewrite Hd. unfold len. by rewrite Hlen.
Qed.

Lemma analyze_malaria_pdf_run pdf_path g :
  exists d n g',
    analyze_malaria_pdf pdf_path g = (Ok d, g') /\
    d !! "images_analyzed" = Some (VInt n) /\ 1 <= n <= 5.
Proof.
  unfold analyze_malaria_pdf.
  destruct (extract_images_from_pdf_run pdf_path g) as (images & Himages & Hlen & _).
  rewrite (M_bind_Ok _ _ _ _ _ Himages).
  destruct (diagnose_run images (advance g)) as (d & g' & -> & Hd).
  exists d, (len images), g'. split; [done|]. split; [|done].
  destruct images; [unfold len in Hlen; simpl in Hlen; lia|done].
Qed.

(** C1: with [k > 0] detected entries the diagnosis is Positive, its count is
    [k], its confidence is the mean of the confidences of the [k] detected
    entries, and its species are the labels of the detected entries that
    carry one: a name is among them exactly when a detected entry carries
    it. *)
Theorem aggregate_positive (rs : list DetectionResult) :
  (0 < count_detected rs)%nat ->
  aggregate rs =
    Ok (py_dict [("diagnosis", VStr "Positive");
                 ("parasites_detected", VStrSet (detected_labels rs));
                 ("confidence", VFloat (mean_detected_confidence rs));
                 ("parasite_count", VInt (Z.of_nat (count_detected rs)));
                 ("images_analyzed", VInt (len rs))]) /\
  (forall name,
     name ∈ detected_labels rs <->
     exists r, r ∈ rs /\ parasite_detected r = true /\ label r = Some name).
Proof.
  intros Hk. split; [by apply aggregate_detected|].
  intros name. apply elem_of_detected_labels.
Qed.

(** C2: a non-empty sequence without a detected entry is diagnosed Negative,
    with confidence 0.85, count 0 and the length of the sequence as total. *)
Theorem aggregate_negative (rs : list DetectionResult) :
  rs <> [] ->
  count_detected rs = 0%nat ->
  aggregate rs =
    Ok (py_dict [("diagnosis", VStr "Negative");
                 ("confidence", VFloat 0.85);
                 ("parasite_count", VInt 0);
                 ("images_analyzed", VInt (len rs))]).
Proof. intros _ Hk. by apply aggregate_none_detected. Qed.

(** C3: without images the diagnosis is Inconclusive and says that no images
    were found, whatever the generator and the runtime are; the generator is
    left as it was. *)
Theorem diagnose_no_images (g : Rng) :
  exists d,
    diagnose [] g = (Ok d, g) /\
    d !! "diagnosis" = Some (VStr "Inconclusive") /\
    d !! "error" = Some (VStr "No images found in PDF").
Proof. eexists. repeat split. Qed.

(** C4, as the code has it: with images the diagnosis, Positive or Negative,
    carries the number of images as [images_analyzed]; the Inconclusive
    diagnosis of no images carries the verdict and the error note and nothing
    else, so no [images_analyzed]. *)
Theorem diagnose_images_analyzed (images : list Image) (g : Rng) :
  exists d g',
    diagnose images g = (Ok d, g') /\
    d !! "images_analyzed" =
      match images with [] => None | _ :: _ => Some (VInt (len images)) end /\
    match images with
    | [] =>
        d !! "diagnosis" = Some (VStr "Inconclusive") /\
        d !! "error" = Some (VStr "No images found in PDF") /\
        dom d = {[ "diagnosis"; "error" ]}
    | _ :: _ =>
        d !! "diagnosis" = Some (VStr "Positive") \/
        d !! "diagnosis" = Some (VStr "Negative")
    end.
Proof.
  destruct images as [|image images].
  - eexists _, g. split; [reflexivity|]. by repeat split.
  - destruct (diagnose_images (image :: images) g) as (rs & g' & _ & Hlen & ->); [done|].
    destruct (aggregate_run rs) as (d & Hd & Htotal). rewrite Hd.
    exists d, g'. split; [done|]. split.
    + rewrite Htotal. unfold len. by rewrite Hlen.
    + destruct (count_detected rs) as [|k] eqn:Hk.
      * rewrite (aggregate_none_detected rs Hk) in Hd. injection Hd as <-. by right.
      * rewrite (aggregate_detected rs) in Hd by lia. injection Hd as <-. by left.
Qed.

(** C7: the aggregation returns a diagnosis for every sequence of results,
    and the diagnosis of a list of images returns one for every list and
    every generator; the divisor of the mean is the positive count, so with
    a positive count the list of confidences is not empty and the quotient
    is taken. *)
Theorem aggregation_total :
  (forall rs : list DetectionResult,
     (exists d, aggregate rs = Ok d) /\
     len (confidences rs) = positive_count rs /\
     (0 < positive_count rs ->
        confidences rs <> [] /\
        exists q, avg_confidence (confidences rs) = Ok (VFloat q))) /\
  (forall (images : list Image) (g : Rng),
     exists d g', diagnose images g = (Ok d, g')).
Proof.
  split.
  - intros rs. split; [|split].
    + destruct (aggregate_run rs) as (d & Hd & _). eauto.
    + apply confidences_length.
    + intros Hpos. rewrite positive_count_detected in Hpos. split.
      * intros Hnil. pose proof (confidences_length rs) as Hlen.
        rewrite Hnil, positive_count_detected in Hlen. unfold len in Hlen.
        simpl in Hlen. lia.
      * rewrite avg_confidence_detected by lia. eauto.
  - intros images g. destruct (diagnose_run images g) as (d & g' & Hd & _). eauto.
Qed.

End DiagnosisProperties.

(** ** The analyze endpoint *)

Section EndpointProperties.
Context {runtime : Runtime}.

Lemma truthy_nonempty s : s <> "" -> Str.truthy s = true.
Proof. by destruct s. Qed.

(** What the endpoint does with a named file, by the validator's answer. *)
Lemma analyze_pdf_named request file w :
  files request !! "file" = Some file ->
  filename file <> "" ->
  analyze_pdf request w =
    match allowed_file (filename file) with
    | Raise e => (Raise e, w)
    | Ok true =>
        let filepath := path_join UPLOAD_FOLDER (secure_filename (filename file)) in
        match write_refused filepath with
        | Some e => (Raise e, w)
        | None =>
            let stored := <[filepath := stream file]> (disk w) in
            match analyze_malaria_pdf filepath (rng w) with
            | (Ok results, g) =>
                (Ok {| body := py_dict [("success", VBool true);
                                        ("results", VDict results)];
                       status := 200 |},
                 {| disk := stored; rng := g |})
            | (Raise e, g) =>
                (Ok {| body := py_dict [("error",
                          VStr ("Analysis failed: " +:+ exc_str e))];
                       status := 500 |},
                 {| disk := stored; rng := g |})
            end
        end
    | Ok false =>
        (Ok {| body := py_dict [("error",
                  VStr "File type not allowed. Please upload a PDF file.")];
               status := 400 |}, w)
    end.
Proof.
  intros Hfile Hname. unfold analyze_pdf. rewrite Hfile.
  destruct (String.eqb_spec (filename file) "") as [|_]; [done|].
  rewrite (truthy_nonempty _ Hname).
  destruct (allowed_file (filename file)) as [[]|e]; [|done..].
  cbv zeta. unfold save.
  by destruct (write_refused (path_join UPLOAD_FOLDER (secure_filename (filename file)))).
Qed.

Lemma analyze_pdf_400_world request w response w' :
  analyze_pdf request w = (Ok response, w') -> status response = 400 -> w' = w.
Proof.
  unfold analyze_pdf.
  destruct (files request !! "file") as [file|]; [|by intros [= <- <-]].
  destruct (String.eqb (filename file) ""); [by intros [= <- <-]|].
  destruct (if Str.truthy (filename file) then allowed_file (filename file) else Ok false)
    as [[]|e]; [|by intros [= <- <-]|done].
  cbv zeta. unfold save. destruct (write_refused _) as [e|]; [done|].
  destruct (analyze_malaria_pdf _ _) as [[results|e] g]; by intros [= <- <-].
Qed.

(** C9: without the field [file] the answer is 400 [No file part]; with an
    empty filename it is 400 [No file selected]; with a name the validator
    refuses it is 400 with the file-type message; whenever the answer is 400
    the disk and the generator are as they were before the request. *)
Theorem analyze_pdf_rejections (request : Request) (w : World) :
  (files request !! "file" = None ->
     analyze_pdf request w =
       (Ok {| body := py_dict [("error", VStr "No file part")]; status := 400 |}, w)) /\
  (forall file,
     files request !! "file" = Some file ->
     filename file = "" ->
     analyze_pdf request w =
       (Ok {| body := py_dict [("error", VStr "No file selected")]; status := 400 |}, w)) /\
  (forall file,
     files request !! "file" = Some file ->
     filename file <> "" ->
     allowed_file (filename file) = Ok false ->
     analyze_pdf request w =
       (Ok {| body := py_dict [("error",
                 VStr "File type not allowed. Please upload a PDF file.")];
              status := 400 |}, w)) /\
  (forall response w',
     analyze_pdf request w = (Ok response, w') ->
     status response = 400 ->
     w' = w).
Proof.
  repeat split.
  - intros Hfile. unfold analyze_pdf. by rewrite Hfile.
  - intros file Hfile Hname. unfold analyze_pdf. by rewrite Hfile, Hname.
  - intros file Hfile Hname Hext.
    by rewrite (analyze_pdf_named _ _ _ Hfile Hname), Hext.
  - apply analyze_pdf_400_world.
Qed.

Lemma analyze_pdf_200 request w response w' :
  analyze_pdf request w = (Ok response, w') ->
  status response = 200 ->
  exists results n,
    body response !! "results" = Some (VDict results) /\
    results !! "images_analyzed" = Some (VInt n) /\ 1 <= n <= 5.
Proof.
  unfold analyze_pdf.
  destruct (files request !! "file") as [file|]; [|by intros [= <- <-]].
  destruct (String.eqb (filename file) ""); [by intros [= <- <-]|].
  destruct (if Str.truthy (filename file) then allowed_file (filename file) else Ok false)
    as [[]|e]; [|by intros [= <- <-]|done].
  cbv zeta. unfold save. destruct (write_refused _) as [e|]; [done|].
  match goal with
  | |- context [analyze_malaria_pdf ?path ?g] =>
      destruct (analyze_malaria_pdf_run path g) as (d & n & g' & -> & Hd & Hn)
  end.
  intros [= <- <-] _. exists d, n. done.
Qed.

(** A named file that the validator accepts and whose path can be written is
    stored, analyzed and answered with 200. *)
Lemma analyze_pdf_accepted request file w :
  files request !! "file" = Some file ->
  filename file <> "" ->
  allowed_file (filename file) = Ok true ->
  write_refused (path_join UPLOAD_FOLDER (secure_filename (filename file))) = None ->
  exists response w', analyze_pdf request w = (Ok response, w') /\ status response = 200.
Proof.
  intros Hfile Hname Hext Hwrite.
  rewrite (analyze_pdf_named _ _ _ Hfile Hname), Hext. cbv zeta. rewrite Hwrite.
  match goal with
  | |- context [analyze_malaria_pdf ?path ?g] =>
      destruct (analyze_malaria_pdf_run path g) as (d & n & g' & -> & _)
  end.
  eauto.
Qed.

(** C5: for every generator the extraction stub returns between one and five
    records, the [i]-th with index [i] and the placeholder payload (and page
    [0]); so every 200 answer of the endpoint reports between one and five
    images analyzed. *)
Theorem extraction_one_to_five :
  (forall (pdf_path : string) (g : Rng),
     exists images g',
       extract_images_from_pdf pdf_path g = (Ok images, g') /\
       1 <= len images <= 5 /\
       (forall i image, images !! i = Some image ->
          index image = Z.of_nat i /\ bytes image = placeholder /\ page image = 0)) /\
  (forall request w response w',
     analyze_pdf request w = (Ok response, w') ->
     status response = 200 ->
     exists results n,
       body response !! "results" = Some (VDict results) /\
       results !! "images_analyzed" = Some (VInt n) /\ 1 <= n <= 5).
Proof.
  split.
  - intros pdf_path g.
    destruct (extract_images_from_pdf_run pdf_path g) as (images & Hrun & Hlen & Hi).
    exists images, (advance g). split; [done|]. split; [done|].
    intros i image Himage.
    rewrite (Hi i) in Himage by (by eapply lookup_lt_Some).
    by injection Himage as <-.
  - apply analyze_pdf_200.
Qed.

End EndpointProperties.

(** ** The classifier stub: label and detection *)

(** C6: the label and the detection come from separate draws: some generator
    gives a label without a detection, and some gives a detection without a
    label (and the two other combinations occur as well). *)
Theorem label_independent_of_detection (image_data : list byte) :
  (exists g r, (analyze_image_for_malaria image_data g).1 = Ok r /\
               parasite_detected r = false /\ is_Some (parasite_type r)) /\
  (exists g r, (analyze_image_for_malaria image_data g).1 = Ok r /\
               parasite_detected r = true /\ parasite_type r = None) /\
  (exists g r, (analyze_image_for_malaria image_data g).1 = Ok r /\
               parasite_detected r = true /\ is_Some (parasite_type r)) /\
  (exists g r, (analyze_image_for_malaria image_data g).1 = Ok r /\
               parasite_detected r = false /\ parasite_type r = None).
Proof.
  repeat split.
  - exists (rng_of [1; 4503599627370496; 2; 0]%N). eexists.
    split; [vm_compute; reflexivity|]. split; [done|by eexists].
  - exists (rng_of [0; 0; 0]%N). eexists.
    split; [vm_compute; reflexivity|]. done.
  - exists (rng_of [0; 4503599627370496; 1; 0]%N). eexists.
    split; [vm_compute; reflexivity|]. split; [done|by eexists].
  - exists (rng_of [1; 0; 0]%N). eexists.
    split; [vm_compute; reflexivity|]. done.
Qed.

(** ** The model at concrete inputs *)

Example allowed_file_pdf : allowed_file "report.pdf" = Ok true.
Proof. reflexivity. Qed.

Example allowed_file_upper : allowed_file "scan.v2.PdF" = Ok true.
Proof. reflexivity. Qed.

Example allowed_file_exe : allowed_file "report.exe" = Ok false.
Proof. reflexivity. Qed.

Example allowed_file_inner_pdf : allowed_file "report.pdf.exe" = Ok false.
Proof. reflexivity. Qed.

Example allowed_file_bare : allowed_file "pdf" = Ok false.
Proof. reflexivity. Qed.

Example rsplit1_last_dot : Str.rsplit1 "." "a.b.c" = ["a.b"; "c"].
Proof. reflexivity. Qed.

(** Three detected entries of [sample_results]: the undetected entry's label
    and confidence are left out. *)
Example aggregate_sample :
  @aggregate example_runtime sample_results =
    Ok (py_dict [("diagnosis", VStr "Positive");
                 ("parasites_detected", VStrSet {[ "P. vivax" ]});
                 ("confidence", VFloat 0.8000000000000002);
                 ("parasite_count", VInt 3);
                 ("images_analyzed", VInt 4)]).
Proof. vm_compute. reflexivity. Qed.

(** The theorem of C1 at [sample_results], which has three detected entries *)
Lemma aggregate_positive_witness :
  (0 < count_detected sample_results)%nat /\
  @aggregate example_runtime sample_results =
    Ok (py_dict [("diagnosis", VStr "Positive");
                 ("parasites_detected", VStrSet (detected_labels sample_results));
                 ("confidence",
                   VFloat (@mean_detected_confidence example_runtime sample_results));
                 ("parasite_count", VInt (Z.of_nat (count_detected sample_results)));
                 ("images_analyzed", VInt (len sample_results))]).
Proof.
  split; [simpl; lia|].
  apply (@aggregate_positive example_runtime sample_results). simpl; lia.
Defined.

(** The theorem of C2 at [clean_results] *)
Lemma aggregate_negative_witness :
  clean_results <> [] /\
  count_detected clean_results = 0%nat /\
  @aggregate example_runtime clean_results =
    Ok (py_dict [("diagnosis", VStr "Negative");
                 ("confidence", VFloat 0.85);
                 ("parasite_count", VInt 0);
                 ("images_analyzed", VInt 2)]).
Proof.
  split; [discriminate|]. split; [reflexivity|].
  apply (@aggregate_negative example_runtime clean_results); [discriminate|reflexivity].
Defined.

(** The claim of C4 fails at the empty list of images: the Inconclusive
    diagnosis has no [images_analyzed]. *)
Lemma inconclusive_has_no_total :
  ~ (forall (runtime : Runtime) (images : list Image) (g : Rng),
       exists d, (diagnose images g).1 = Ok d /\
                 d !! "images_analyzed" = Some (VInt (len images))).
Proof.
  intros Hclaim.
  destruct (Hclaim example_runtime [] (rng_of [])) as (d & Hd & Htotal).
  injection Hd as <-. discriminate Htotal.
Qed.

Example classifier_label_without_detection :
  (analyze_image_for_malaria placeholder (rng_of [1; 4503599627370496; 2; 0]%N)).1 =
    Ok {| parasite_detected := false; parasite_type := Some Ovale; confidence := 0.7 |}.
Proof. vm_compute. reflexivity. Qed.

Example classifier_detection_without_label :
  (analyze_image_for_malaria placeholder (rng_of [0; 0; 0]%N)).1 =
    Ok {| parasite_detected := true; parasite_type := None; confidence := 0.7 |}.
Proof. vm_compute. reflexivity. Qed.

Example extract_three :
  (extract_images_from_pdf "/srv/backend/uploads/report.pdf" (rng_of [7]%N)).1 =
    Ok [ {| page := 0; index := 0; bytes := placeholder |};
         {| page := 0; index := 1; bytes := placeholder |};
         {| page := 0; index := 2; bytes := placeholder |} ].
Proof. reflexivity. Qed.

(** [report.exe] is refused and nothing is written. *)
Example analyze_pdf_exe :
  @analyze_pdf example_runtime (upload "report.exe" placeholder) (empty_world (rng_of [])) =
    (Ok {| body := py_dict [("error",
              VStr "File type not allowed. Please upload a PDF file.")];
           status := 400 |},
     empty_world (rng_of [])).
Proof. vm_compute. reflexivity. Qed.

(** [report.pdf] is stored and analyzed: two images, none detected. *)
Example analyze_pdf_report :
  let (response, w) :=
    @analyze_pdf example_runtime (upload "report.pdf" placeholder)
      (empty_world (rng_of [1; 1; 0; 0; 1; 4503599627370496; 3; 0]%N)) in
  response =
    Ok {| body := py_dict [("success", VBool true);
                           ("results", VDict (py_dict [("diagnosis", VStr "Negative");
                                                       ("confidence", VFloat 0.85);
                                                       ("parasite_count", VInt 0);
                                                       ("images_analyzed", VInt 2)]))];
          status := 200 |} /\
  disk w = {[ "/srv/backend/uploads/report.pdf" := placeholder ]}.
Proof. vm_compute. split; reflexivity. Qed.

(** * Further properties of the code *)

(** ** Upload validator *)

Lemma string_app_assoc (s1 s2 s3 : string) :
  (s1 +:+ s2) +:+ s3 = s1 +:+ (s2 +:+ s3).
Proof.
  induction s1 as [|a s1 IH]; [reflexivity|].
  change (String a ((s1 +:+ s2) +:+ s3) = String a (s1 +:+ s2 +:+ s3)).
  by rewrite IH.
Qed.

(** The extension [allowed_file] looks at: what follows the last dot of
    [suf], or [suf] itself when it has no dot. *)
Lemma cut_last_after_dot pre suf :
  exists pre',
    Str.cut_last "." (pre +:+ "." +:+ suf) =
      Some (pre', match Str.cut_last "." suf with
                  | Some (_, ext) => ext
                  | None => suf
                  end).
Proof.
  change ("." +:+ suf) with (String "." suf).
  destruct (Str.cut_last "." suf) as [[p ext]|] eqn:Hcut.
  - apply cut_last_Some in Hcut as [-> Hext].
    exists (pre +:+ String "." p). apply cut_last_Some. split; [|done].
    rewrite string_app_assoc. done.
  - exists pre. apply cut_last_Some. split; [done|].
    destruct (Str.contains "." suf) eqn:Hsuf; [|done].
    destruct (contains_true_cut_last _ _ Hsuf) as (? & ? & ?). congruence.
Qed.

(** X1: the answer of the validator does not depend on what stands before a
    dot of the name: a hidden file, a path or an empty stem are treated like
    any other name with the same ending. *)
Theorem allowed_file_ignores_stem (pre pre' suf : string) :
  allowed_file (pre +:+ "." +:+ suf) = allowed_file (pre' +:+ "." +:+ suf).
Proof.
  destruct (cut_last_after_dot pre suf) as (p & Hp).
  destruct (cut_last_after_dot pre' suf) as (p' & Hp').
  by rewrite (allowed_file_cut _ _ _ Hp), (allowed_file_cut _ _ _ Hp').
Qed.

(** X2: a name that ends in a dot is refused, whatever stands before the
    dot: its extension is the empty string. *)
Theorem allowed_file_trailing_dot (stem : string) :
  allowed_file (stem +:+ ".") = Ok false.
Proof.
  destruct (cut_last_after_dot stem "") as (p & Hp).
  change (stem +:+ ".") with (stem +:+ "." +:+ "").
  by rewrite (allowed_file_cut _ _ _ Hp).
Qed.

Lemma lower_ascii_p a :
  Str.lower_ascii a = "p"%char <-> a = "p"%char \/ a = "P"%char.
Proof.
  destruct a as [[] [] [] [] [] [] [] []]; cbv;
    (split; [intros Heq; first [discriminate Heq | auto] | intros [Heq|Heq]; first [discriminate Heq | done]]).
Qed.

Lemma lower_ascii_d a :
  Str.lower_ascii a = "d"%char <-> a = "d"%char \/ a = "D"%char.
Proof.
  destruct a as [[] [] [] [] [] [] [] []]; cbv;
    (split; [intros Heq; first [discriminate Heq | auto] | intros [Heq|Heq]; first [discriminate Heq | done]]).
Qed.

Lemma lower_ascii_f a :
  Str.lower_ascii a = "f"%char <-> a = "f"%char \/ a = "F"%char.
Proof.
  destruct a as [[] [] [] [] [] [] [] []]; cbv;
    (split; [intros Heq; first [discriminate Heq | auto] | intros [Heq|Heq]; first [discriminate Heq | done]]).
Qed.

Lemma lower_pdf ext : Str.lower ext = "pdf" <-> pdf_spelling ext.
Proof.
  split.
  - destruct ext as [|a [|b [|c [|]]]]; simpl; try discriminate.
    intros [= Ha Hb Hc]. exists a, b, c.
    rewrite <- lower_ascii_p, <- lower_ascii_d, <- lower_ascii_f. done.
  - intros (a & b & c & -> & Ha & Hb & Hc). simpl.
    apply lower_ascii_p in Ha. apply lower_ascii_d in Hb. apply lower_ascii_f in Hc.
    by rewrite Ha, Hb, Hc.
Qed.

Lemma pdf_spelling_no_dot ext : pdf_spelling ext -> Str.contains "." ext = false.
Proof.
  intros (a & b & c & -> & Ha & Hb & Hc).
  destruct Ha as [->| ->], Hb as [->| ->], Hc as [->| ->]; reflexivity.
Qed.

(** X3: the names the validator accepts are exactly those that end in a dot
    followed by one of the eight spellings of [pdf]: three letters, each in
    either case. *)
Theorem allowed_file_eight_spellings (filename : string) :
  allowed_file filename = Ok true <->
  exists stem ext, filename = stem +:+ "." +:+ ext /\ pdf_spelling ext.
Proof.
  rewrite allowed_file_true. unfold has_accepted_extension. split.
  - intros (pre & suf & -> & _ & Hext). exists pre, suf. split; [done|].
    by apply lower_pdf, elem_of_ALLOWED_EXTENSIONS.
  - intros (pre & suf & -> & Hext). exists pre, suf. split; [done|].
    split; [by apply pdf_spelling_no_dot|].
    by apply elem_of_ALLOWED_EXTENSIONS, lower_pdf.
Qed.

(** ** Diagnosis *)

Section DiagnosisFurther.
Context {runtime : Runtime}.

Lemma count_detected_le rs : (count_detected rs <= length rs)%nat.
Proof.
  induction rs as [|r rs IH]; simpl; [lia|].
  destruct (parasite_detected r); lia.
Qed.

Lemma count_detected_app rs1 rs2 :
  count_detected (rs1 ++ rs2)%list = (count_detected rs1 + count_detected rs2)%nat.
Proof.
  induction rs1 as [|r rs1 IH]; simpl; [done|]. rewrite IH. lia.
Qed.

Lemma count_detected_Permutation rs rs' :
  rs ≡ₚ rs' -> count_detected rs = count_detected rs'.
Proof.
  induction 1 as [|r rs rs' _ IH|r1 r2 rs|rs1 rs2 rs3 _ IH1 _ IH2]; simpl.
  - done.
  - by rewrite IH.
  - lia.
  - congruence.
Qed.

Lemma detected_labels_Permutation rs rs' :
  rs ≡ₚ rs' -> detected_labels rs = detected_labels rs'.
Proof.
  intros Hperm. apply set_eq. intros name.
  rewrite !elem_of_detected_labels.
  split; intros (r & Hr & Hrest); exists r; (split; [|done]).
  - by rewrite <- Hperm.
  - by rewrite Hperm.
Qed.

(** What a diagnosis of [aggregate] holds, by the number of detected
    entries. *)
Lemma aggregate_fields rs :
  exists d,
    aggregate rs = Ok d /\
    verdict d = Some (if (0 <? Z.of_nat (count_detected rs)) then "Positive" else "Negative") /\
    int_field "parasite_count" d = Some (Z.of_nat (count_detected rs)) /\
    int_field "images_analyzed" d = Some (len rs) /\
    species_field d =
      (if (0 <? Z.of_nat (count_detected rs)) then Some (detected_labels rs) else None).
Proof.
  destruct (count_detected rs) as [|k] eqn:Hk.
  - rewrite (aggregate_none_detected rs Hk). eexists. split; [done|]. by repeat split.
  - rewrite (aggregate_detected rs) by lia. rewrite Hk. eexists. split; [done|].
    by repeat split.
Qed.

(** X4: the positive count of a diagnosis is between zero and the number of
    images analyzed, and the verdict is Positive exactly when the count is
    not zero, Negative otherwise. *)
Theorem aggregate_count_bounds (rs : list DetectionResult) :
  exists d c,
    aggregate rs = Ok d /\
    int_field "parasite_count" d = Some c /\
    int_field "images_analyzed" d = Some (len rs) /\
    0 <= c <= len rs /\
    verdict d = Some (if 0 <? c then "Positive" else "Negative").
Proof.
  destruct (aggregate_fields rs) as (d & Hd & Hv & Hc & Hn & _).
  exists d, (Z.of_nat (count_detected rs)). repeat split; try done; [lia|].
  pose proof (count_detected_le rs). unfold len. lia.
Qed.

(** X5: when no detected entry carries a label the diagnosis is still
    Positive, with an empty list of species: labels of entries that are not
    detected do not fill it. *)
Theorem aggregate_positive_without_species (rs : list DetectionResult) :
  (0 < count_detected rs)%nat ->
  (forall r, r ∈ rs -> parasite_detected r = true -> parasite_type r = None) ->
  exists d,
    aggregate rs = Ok d /\
    verdict d = Some "Positive" /\
    species_field d = Some ∅.
Proof.
  intros Hk Hnone.
  destruct (aggregate_fields rs) as (d & Hd & Hv & _ & _ & Hs).
  destruct (Z.ltb_spec 0 (Z.of_nat (count_detected rs))); [|lia].
  exists d. split; [done|]. split; [done|]. rewrite Hs. f_equal.
  apply set_eq. intros name. rewrite elem_of_detected_labels. split.
  - intros (r & Hr & Hd' & Hname). unfold label in Hname.
    by rewrite (Hnone r Hr Hd') in Hname.
  - by intros ?%not_elem_of_empty.
Qed.

Lemma size_list_to_set_le (l : list string) :
  (size (list_to_set l : gset string) <= length l)%nat.
Proof.
  induction l as [|x l IH].
  - change (size (∅ : gset string) <= 0)%nat. by rewrite size_empty.
  - change (size ({[x]} ∪ (list_to_set l : gset string)) <= S (length l))%nat.
    rewrite size_union_alt, size_singleton.
    pose proof (subseteq_size (list_to_set l ∖ {[x]}) (list_to_set l : gset string)) as Hsub.
    assert (list_to_set l ∖ {[x]} ⊆ (list_to_set l : gset string)) as Hdiff.
    { intros y Hy. by apply elem_of_difference in Hy as [Hy _]. }
    specialize (Hsub Hdiff). lia.
Qed.

Lemma detected_labels_names rs : detected_labels rs ⊆ species_names.
Proof.
  intros name (r & _ & _ & Hname)%elem_of_detected_labels.
  unfold label in Hname. destruct (parasite_type r) as [s|]; [|done].
  injection Hname as <-. unfold species_names.
  apply elem_of_list_to_set, list_elem_of_fmap. exists s. split; [done|].
  destruct s; rewrite !elem_of_cons; auto 10.
Qed.

Lemma length_omap_le {A B} (f : A -> option B) (l : list A) :
  (length (omap f l) <= length l)%nat.
Proof.
  induction l as [|x l IH]; [done|].
  change (omap f (x :: l)) with (match f x with Some y => y :: omap f l | None => omap f l end).
  destruct (f x); simpl in *; lia.
Qed.

(** X6: the species of a Positive diagnosis are among the four names of the
    classifier, so there are at most four, and never more than the positive
    count. *)
Theorem aggregate_species_bounds (rs : list DetectionResult) :
  (0 < count_detected rs)%nat ->
  exists d s,
    aggregate rs = Ok d /\
    species_field d = Some s /\
    s ⊆ species_names /\
    (size s <= 4)%nat /\
    (size s <= count_detected rs)%nat.
Proof.
  intros Hk.
  destruct (aggregate_fields rs) as (d & Hd & _ & _ & _ & Hs).
  destruct (Z.ltb_spec 0 (Z.of_nat (count_detected rs))); [|lia].
  exists d, (detected_labels rs). split; [done|]. split; [done|].
  split; [apply detected_labels_names|]. split.
  - change 4%nat with (size species_names).
    apply subseteq_size, detected_labels_names.
  - unfold detected_labels.
    etrans; [apply size_list_to_set_le|].
    etrans; [apply length_omap_le|]. by rewrite detected_entries_length.
Qed.

(** X7: the verdict, the positive count, the total and the species of a
    diagnosis do not depend on the order of the results. *)
Theorem aggregate_order_independent (rs rs' : list DetectionResult) :
  rs ≡ₚ rs' ->
  exists d d',
    aggregate rs = Ok d /\ aggregate rs' = Ok d' /\
    verdict d = verdict d' /\
    int_field "parasite_count" d = int_field "parasite_count" d' /\
    int_field "images_analyzed" d = int_field "images_analyzed" d' /\
    species_field d = species_field d'.
Proof.
  intros Hperm.
  destruct (aggregate_fields rs) as (d & Hd & Hv & Hc & Hn & Hs).
  destruct (aggregate_fields rs') as (d' & Hd' & Hv' & Hc' & Hn' & Hs').
  exists d, d'. split; [done|]. split; [done|].
  rewrite Hv, Hv', Hc, Hc', Hn, Hn', Hs, Hs'.
  rewrite (count_detected_Permutation _ _ Hperm), (detected_labels_Permutation _ _ Hperm).
  unfold len. by rewrite (Permutation_length Hperm).
Qed.

(** X8: the diagnosis of two batches put together: the positive counts and
    the totals add up, and the verdict is Positive exactly when the verdict
    of one of the batches is. *)
Theorem aggregate_app (rs1 rs2 : list DetectionResult) :
  exists d1 d2 d c1 c2,
    aggregate rs1 = Ok d1 /\ aggregate rs2 = Ok d2 /\
    aggregate (rs1 ++ rs2)%list = Ok d /\
    int_field "parasite_count" d1 = Some c1 /\
    int_field "parasite_count" d2 = Some c2 /\
    int_field "parasite_count" d = Some (c1 + c2) /\
    int_field "images_analyzed" d = Some (len rs1 + len rs2) /\
    (verdict d = Some "Positive" <->
     verdict d1 = Some "Positive" \/ verdict d2 = Some "Positive").
Proof.
  destruct (aggregate_fields rs1) as (d1 & Hd1 & Hv1 & Hc1 & _).
  destruct (aggregate_fields rs2) as (d2 & Hd2 & Hv2 & Hc2 & _).
  destruct (aggregate_fields (rs1 ++ rs2)%list) as (d & Hd & Hv & Hc & Hn & _).
  exists d1, d2, d, (Z.of_nat (count_detected rs1)), (Z.of_nat (count_detected rs2)).
  rewrite count_detected_app in Hv, Hc.
  repeat (split; [done|]). split; [|split].
  - rewrite Hc. f_equal. lia.
  - rewrite Hn. unfold len. rewrite length_app. f_equal. lia.
  - rewrite Hv, Hv1, Hv2.
    destruct (Z.ltb_spec 0 (Z.of_nat (count_detected rs1 + count_detected rs2)));
      destruct (Z.ltb_spec 0 (Z.of_nat (count_detected rs1)));
      destruct (Z.ltb_spec 0 (Z.of_nat (count_detected rs2)));
      try lia; split; auto; intros [|]; done.
Qed.

End DiagnosisFurther.

(** ** The pipeline and the endpoint *)

Section ServiceFurther.
Context {runtime : Runtime}.

Lemma aggregate_no_error rs d : aggregate rs = Ok d -> d !! "error" = None.
Proof.
  destruct (count_detected rs) as [|k] eqn:Hk.
  - rewrite (aggregate_none_detected rs Hk). by intros [= <-].
  - rewrite (aggregate_detected rs) by lia. by intros [= <-].
Qed.

(** The pipeline aggregates between one and five results. *)
Lemma analyze_malaria_pdf_aggregates pdf_path g :
  exists rs d g',
    analyze_malaria_pdf pdf_path g = (Ok d, g') /\
    aggregate rs = Ok d /\
    1 <= len rs <= 5.
Proof.
  unfold analyze_malaria_pdf.
  destruct (extract_images_from_pdf_run pdf_path g) as (images & Himages & Hlen & _).
  rewrite (M_bind_Ok _ _ _ _ _ Himages).
  assert (images <> []) as Hne by (intros ->; unfold len in Hlen; simpl in Hlen; lia).
  destruct (diagnose_images images (advance g) Hne) as (rs & g' & _ & Hrs & ->).
  destruct (aggregate_run rs) as (d & Hd & _).
  exists rs, d, g'. rewrite Hd. split; [done|]. split; [done|].
  unfold len in *. by rewrite Hrs.
Qed.

(** X9: the pipeline returns a diagnosis for every path and generator, and
    never the Inconclusive one: the stub extracts at least one image, so the
    verdict is Positive or Negative, without an [error] entry, over one to
    five images of which the positive count is a part. *)
Theorem analyze_malaria_pdf_never_inconclusive (pdf_path : string) (g : Rng) :
  exists d g' n c,
    analyze_malaria_pdf pdf_path g = (Ok d, g') /\
    int_field "images_analyzed" d = Some n /\
    int_field "parasite_count" d = Some c /\
    1 <= n <= 5 /\ 0 <= c <= n /\
    verdict d = Some (if 0 <? c then "Positive" else "Negative") /\
    d !! "error" = None.
Proof.
  destruct (analyze_malaria_pdf_aggregates pdf_path g) as (rs & d & g' & Hrun & Hagg & Hlen).
  destruct (aggregate_fields rs) as (d' & Hd' & Hv & Hc & Hn & _).
  assert (d' = d) as -> by congruence.
  exists d, g', (len rs), (Z.of_nat (count_detected rs)).
  repeat (split; [done|]). split; [|split; [done|by eapply aggregate_no_error]].
  pose proof (count_detected_le rs). unfold len in *. lia.
Qed.

Lemma accepted_name filename :
  has_accepted_extension filename ->
  filename <> "" /\ allowed_file filename = Ok true.
Proof.
  intros Hext. split; [|by apply allowed_file_true].
  destruct Hext as (pre & suf & -> & _). by destruct pre.
Qed.


(** What the endpoint does with an accepted file whose path is refused. *)
Lemma analyze_pdf_write_refused_run request file w e :
  files request !! "file" = Some file ->
  has_accepted_extension (filename file) ->
  write_refused (path_join UPLOAD_FOLDER (secure_filename (filename file))) = Some e ->
  analyze_pdf request w = (Raise e, w).
Proof.
  intros Hfile [Hname Hext]%accepted_name Hwrite.
  rewrite (analyze_pdf_named _ _ _ Hfile Hname), Hext. cbv zeta. by rewrite Hwrite.
Qed.








(** X16: [file.save] runs before the [try]: when the operating system
    refuses the path of an accepted upload, the exception leaves the
    endpoint: there is no response of its own, nothing is stored and nothing
    is drawn from the generator. *)
Theorem analyze_pdf_write_refused
  (request : Request) (file : FileStorage) (w : World) (e : PyExc) :
  files request !! "file" = Some file ->
  has_accepted_extension (filename file) ->
  write_refused (path_join UPLOAD_FOLDER (secure_filename (filename file))) = Some e ->
  analyze_pdf request w = (Raise e, w).
Proof. apply analyze_pdf_write_refused_run. Qed.

(** X15: the keys of a diagnosis go with its verdict: Inconclusive (no
    images) has the verdict and the error note only; Negative has the
    verdict, the confidence and the two counts; Positive has the list of
    species besides. *)
Theorem diagnose_keys (images : list Image) (g : Rng) :
  exists d g',
    diagnose images g = (Ok d, g') /\
    ((images = [] /\ verdict d = Some "Inconclusive" /\
      dom d = {[ "diagnosis"; "error" ]}) \/
     (images <> [] /\ verdict d = Some "Negative" /\
      dom d = {[ "diagnosis"; "confidence"; "parasite_count"; "images_analyzed" ]}) \/
     (images <> [] /\ verdict d = Some "Positive" /\
      dom d = {[ "diagnosis"; "parasites_detected"; "confidence"; "parasite_count";
                 "images_analyzed" ]})).
Proof.
  destruct images as [|image images].
  - eexists _, g. split; [reflexivity|]. left. by repeat split.
  - destruct (diagnose_images (image :: images) g) as (rs & g' & _ & _ & ->); [done|].
    destruct (count_detected rs) as [|k] eqn:Hk.
    + rewrite (aggregate_none_detected rs Hk). eexists _, g'. split; [done|].
      right; left. by repeat split.
    + rewrite (aggregate_detected rs) by lia. eexists _, g'. split; [done|].
      right; right. by repeat split.
Qed.

End ServiceFurther.

(** ** The further properties at concrete inputs *)

Example health_check_answer :
  health_check (empty_world (rng_of [])) =
    (Ok {| body := py_dict [("status", VStr "ok");
                            ("message", VStr "Malaria analyzer API is running")];
           status := 200 |},
     empty_world (rng_of [])).
Proof. reflexivity. Qed.

Example allowed_file_hidden : allowed_file ".pdf" = Ok true.
Proof. reflexivity. Qed.



(** The theorem of X5 at [unlabelled_results] *)
Lemma aggregate_positive_without_species_witness :
  exists d,
    @aggregate example_runtime unlabelled_results = Ok d /\
    verdict d = Some "Positive" /\
    species_field d = Some ∅.
Proof.
  apply (@aggregate_positive_without_species example_runtime unlabelled_results).
  - simpl; lia.
  - intros r Hr Hd. unfold unlabelled_results in Hr.
    apply elem_of_cons in Hr as [->|Hr]; [reflexivity|].
    apply elem_of_cons in Hr as [->|Hr]; [discriminate Hd|].
    by apply elem_of_nil in Hr.
Defined.

(** The theorem of X6 at [sample_results] *)
Lemma aggregate_species_bounds_witness :
  exists d s,
    @aggregate example_runtime sample_results = Ok d /\
    species_field d = Some s /\
    s ⊆ species_names /\
    (size s <= 4)%nat /\
    (size s <= count_detected sample_results)%nat.
Proof.
  apply (@aggregate_species_bounds example_runtime sample_results). simpl; lia.
Defined.

(** The theorem of X7 at [sample_results] and its reversal *)
Lemma aggregate_order_independent_witness :
  exists d d',
    @aggregate example_runtime sample_results = Ok d /\
    @aggregate example_runtime (reverse sample_results) = Ok d' /\
    verdict d = verdict d' /\
    int_field "parasite_count" d = int_field "parasite_count" d' /\
    int_field "images_analyzed" d = int_field "images_analyzed" d' /\
    species_field d = species_field d'.
Proof.
  apply (@aggregate_order_independent example_runtime sample_results (reverse sample_results)).
  symmetry. apply reverse_Permutation.
Defined.




Lemma long_name_accepted : has_accepted_extension long_name.
Proof. apply allowed_file_true. vm_compute. reflexivity. Qed.

(** The theorem of X16 at an upload whose name has 300 letters: the path is
    longer than the example runtime lets a path be. *)
Lemma analyze_pdf_write_refused_witness :
  @analyze_pdf example_runtime (upload long_name placeholder) (empty_world (rng_of [])) =
    (Raise (OSError "[Errno 36] File name too long"), empty_world (rng_of [])).
Proof.
  apply (@analyze_pdf_write_refused example_runtime (upload long_name placeholder)
           {| filename := long_name; stream := placeholder |}).
  - reflexivity.
  - apply long_name_accepted.
  - vm_compute. reflexivity.
Defined.
